(** * sdk-creator: the toolkit, the error taxonomy and the REST adapter

    A shallow embedding of the [sdk_creator] package: the string utilities of
    [sdk_creator.toolkit], the exception classes of [sdk_creator.errors] and
    the request path of [sdk_creator.adapter.AsyncRestAdapter].

    Python strings are modelled as [string] (characters as [ascii]); the
    [str] methods the package calls ([strip], [split], [join], [lower],
    [capitalize]) are written out with Python's semantics.  The HTTP client
    (httpx) is an external collaborator: the adapter talks to it through a
    one-operation interaction tree ([io]) so that the requests it issues can
    be counted. *)

From Stdlib Require Import String Ascii List ZArith Lia Bool DecimalString DecimalPos.
Import ListNotations.

Open Scope string_scope.
Set Warnings "-register-all".


(* ------------------------------------------------------------------ *)
(** ** Python [str] methods *)

Module PyStr.

(** [s.lstrip(c)] for a one-character argument. *)
Fixpoint lstrip (c : ascii) (s : string) : string :=
  match s with
  | EmptyString => EmptyString
  | String x s' => if Ascii.eqb x c then lstrip c s' else s
  end.

(** [s.rstrip(c)] for a one-character argument. *)
Fixpoint rstrip (c : ascii) (s : string) : string :=
  match s with
  | EmptyString => EmptyString
  | String x s' =>
      match rstrip c s' with
      | EmptyString => if Ascii.eqb x c then EmptyString else String x EmptyString
      | r => String x r
      end
  end.

(** [s.strip(c)]: both ends. *)
Definition strip (c : ascii) (s : string) : string := rstrip c (lstrip c s).

(** [sep.join(l)]. *)
Fixpoint join (sep : string) (l : list string) : string :=
  match l with
  | [] => EmptyString
  | [x] => x
  | x :: rest => x ++ sep ++ join sep rest
  end.

(** [s.split(c)] for a one-character separator: always [n + 1] pieces for
    [n] occurrences of [c]; [""] splits to [[""]]. *)
Fixpoint split (c : ascii) (s : string) : list string :=
  match s with
  | EmptyString => [EmptyString]
  | String x s' =>
      let parts := split c s' in
      if Ascii.eqb x c then EmptyString :: parts
      else match parts with
           | p :: ps => String x p :: ps
           | [] => [String x EmptyString]
           end
  end.

(** The letters of Latin-1 with a one-character case partner: [A-Z],
    [\xc0-\xd6] and [\xd8-\xde] upper case, [a-z], [\xe0-\xf6] and
    [\xf8-\xfe] lower case (the partner is 32 code points away). *)
Definition is_upper (x : ascii) : bool :=
  let n := nat_of_ascii x in
  ((65 <=? n)%nat && (n <=? 90)%nat) ||
  ((192 <=? n)%nat && (n <=? 222)%nat && negb (n =? 215)%nat).

Definition is_lower (x : ascii) : bool :=
  let n := nat_of_ascii x in
  ((97 <=? n)%nat && (n <=? 122)%nat) ||
  ((224 <=? n)%nat && (n <=? 254)%nat && negb (n =? 247)%nat).

(** [c.lower()] for one Latin-1 character. *)
Definition lower_char (x : ascii) : ascii :=
  if is_upper x then ascii_of_nat (nat_of_ascii x + 32) else x.

Definition upper_char (x : ascii) : ascii :=
  if is_lower x then ascii_of_nat (nat_of_ascii x - 32) else x.

(** [s.lower()]: Python's lower-case mapping restricted to Latin-1, which
    maps Latin-1 to itself one character for one. *)
Fixpoint lower (s : string) : string :=
  match s with
  | EmptyString => EmptyString
  | String x s' => String (lower_char x) (lower s')
  end.

(** [c.upper()] and the title case of [c] for one Latin-1 character: the
    sharp s ([\xdf]) becomes ["SS"] in upper case and ["Ss"] in title case.
    Python maps [\xb5] and [\xff] to U+039C and U+0178, which lie outside
    Latin-1; they are kept as they are here. *)
Definition upper_full (x : ascii) : string :=
  if Ascii.eqb x "223"%char then "SS" else String (upper_char x) EmptyString.

Definition title_full (x : ascii) : string :=
  if Ascii.eqb x "223"%char then "Ss" else String (upper_char x) EmptyString.

(** [s.upper()]. *)
Fixpoint upper (s : string) : string :=
  match s with
  | EmptyString => EmptyString
  | String x s' => upper_full x ++ upper s'
  end.

(** [s.capitalize()] (Python 3.8 and later): the first character in title
    case, the rest lower case. *)
Definition capitalize (s : string) : string :=
  match s with
  | EmptyString => EmptyString
  | String x s' => title_full x ++ lower s'
  end.

(** Helpers to talk about the results. *)
Fixpoint rep (n : nat) (c : ascii) : string :=
  match n with
  | O => EmptyString
  | S k => String c (rep k c)
  end.

Definition starts_with (c : ascii) (s : string) : bool :=
  match s with
  | EmptyString => false
  | String x _ => Ascii.eqb x c
  end.

Fixpoint ends_with (c : ascii) (s : string) : bool :=
  match s with
  | EmptyString => false
  | String x EmptyString => Ascii.eqb x c
  | String _ s' => ends_with c s'
  end.

Fixpoint contains (c : ascii) (s : string) : bool :=
  match s with
  | EmptyString => false
  | String x s' => Ascii.eqb x c || contains c s'
  end.

End PyStr.

(* ------------------------------------------------------------------ *)
(** ** [sdk_creator.toolkit] *)

Module Toolkit.
Import PyStr.

(** Modelled from the spec: [toolkit.join_endpoints(e1, ..., en)]
    ("endpoint-path joining"; src/sdk_creator/toolkit.py is not among the
    repository's files).  Each endpoint is stripped of its leading and
    trailing ['/'] and the pieces are joined with ['/'], as
    tests/toolkit_test.py::TestJoinEndpoints pins it. *)
Definition join_endpoints (endpoints : list string) : string :=
  join "/" (map (strip "/"%char) endpoints).

Section CaseMethods.

(** [str.lower] and [str.capitalize]: Python's Unicode case mappings, which
    [to_camelcase] calls but does not define.  [PyStr.lower] and
    [PyStr.capitalize] are their Latin-1 part. *)
Variables (str_lower str_capitalize : string -> string).

(** Modelled from the spec: [toolkit.to_camelcase(s)] ("snake->camel
    conversion"; src/sdk_creator/toolkit.py is not among the repository's
    files): the first ['_']-separated word lower-cased, every later word
    capitalized, as tests/toolkit_test.py::TestToCamelCase pins it. *)
Definition to_camelcase (s : string) : string :=
  match split "_"%char s with
  | [] => EmptyString
  | first :: rest => str_lower first ++ join "" (map str_capitalize rest)
  end.

End CaseMethods.

(** [to_camelcase] on Latin-1 text. *)
Definition to_camelcase_latin1 : string -> string := to_camelcase lower capitalize.


End Toolkit.

(* ------------------------------------------------------------------ *)
(** ** [sdk_creator.errors] *)

Module Errors.

(** The exception classes the package exports. *)
Inductive kind :=
| ApiError
| ApiRequestError
| ApiResponseError
| ApiRaisedFromStatusError
| ApiTimeoutError.

Definition all_kinds : list kind :=
  [ApiError; ApiRequestError; ApiResponseError; ApiRaisedFromStatusError; ApiTimeoutError].

Definition kind_eqb (a b : kind) : bool :=
  match a, b with
  | ApiError, ApiError
  | ApiRequestError, ApiRequestError
  | ApiResponseError, ApiResponseError
  | ApiRaisedFromStatusError, ApiRaisedFromStatusError
  | ApiTimeoutError, ApiTimeoutError => true
  | _, _ => false
  end.

(** Modelled from the spec: the class statements of src/sdk_creator/errors.py
    (not among the repository's files), "five ... exception kinds"; the base
    classes are the ones tests/errors_test.py asserts with [issubclass]:
    [class ApiError(Exception)] and [class ApiXxxError(ApiError)] for the
    other four.  [None] stands for Python's [Exception], outside the
    taxonomy. *)
Definition base (k : kind) : option kind :=
  match k with
  | ApiError => None
  | ApiRequestError | ApiResponseError | ApiRaisedFromStatusError
  | ApiTimeoutError => Some ApiError
  end.

(** [k.__mro__] restricted to the taxonomy: [k], its base, its base's base,
    ...; [fuel] bounds the walk by the number of classes. *)
Fixpoint mro_fuel (fuel : nat) (k : kind) : list kind :=
  k :: match fuel, base k with
       | S f, Some b => mro_fuel f b
       | _, _ => []
       end.

Definition mro (k : kind) : list kind := mro_fuel (length all_kinds) k.

(** [issubclass(a, b)]. *)
Definition issubclass (a b : kind) : bool := existsb (kind_eqb b) (mro a).

(** A raised exception: its class, the [status_code] attribute that only
    [ApiRaisedFromStatusError] carries, and [str(exc)]. *)
Record api_exception := mkExc {
  exc_kind : kind;
  exc_status_code : option Z;
  exc_message : string
}.

(** Python's built-in [ValueError], and pydantic's [ValidationError], a
    subclass of it. *)
Inductive value_error :=
| ValueError (msg : string)
| ValidationError.

End Errors.

(* ------------------------------------------------------------------ *)
(** ** [sdk_creator.adapter] *)

Module Adapter.
Import Errors.

(** JSON values as [response.json()] returns them. *)
Inductive json :=
| JNull
| JBool (b : bool)
| JInt (z : Z)
| JStr (s : string)
| JList (l : list json)
| JObject (kv : list (string * json)).

(** [Result.data]: the decoded JSON body or [response.text]. *)
Inductive payload :=
| PJson (j : json)
| PText (s : string).

(** [Result(status_code, message, data)]. *)
Record Result := mkResult {
  status_code : Z;
  message : string;
  data : payload
}.

(** What the adapter reads of an [httpx.Response]; [r_json] is [None] when
    [response.json()] raises [JSONDecodeError]. *)
Record Response := mkResponse {
  r_status_code : Z;
  reason_phrase : string;
  r_json : option json;
  r_text : string
}.

(** [response.is_success]: a 2xx status. *)
Definition is_success (r : Response) : bool :=
  (200 <=? r_status_code r)%Z && (r_status_code r <? 300)%Z.

(** The outcome of [await self._client.request(...)]: the
    [httpx.TimeoutException] it raises, any other [httpx.RequestError], or
    the response. *)
Inductive outcome :=
| TimeoutException (msg : string)
| RequestError (msg : string)
| Got (r : Response).

(** The arguments of one [self._client.request(method, url, timeout=...,
    headers=..., params=..., json=...)] call. *)
Record Request := mkRequest {
  rq_method : string;
  rq_url : string;
  rq_timeout : option Z;
  rq_headers : option (list (string * string));
  rq_params : list (string * json);
  rq_json : option json
}.

(** Code that talks to the HTTP client: either done, or one client call and
    a continuation on its outcome. *)
Inductive io (A : Type) : Type :=
| Ret (a : A)
| Call (rq : Request) (k : outcome -> io A).
Arguments Ret {A} a.
Arguments Call {A} rq k.

(** Running against a client: the value and the requests issued, in order. *)
Fixpoint run {A} (client : Request -> outcome) (p : io A) : A * list Request :=
  match p with
  | Ret a => (a, [])
  | Call rq k => let '(a, t) := run client (k (client rq)) in (a, rq :: t)
  end.

Definition requests {A} (client : Request -> outcome) (p : io A) : list Request :=
  snd (run client p).

Definition value {A} (client : Request -> outcome) (p : io A) : A :=
  fst (run client p).

(** A Python call that returns a value or raises an [ApiError]. *)
Inductive py_result (A : Type) :=
| Ok (a : A)
| Raise (e : api_exception).
Arguments Ok {A} a.
Arguments Raise {A} e.

(** [str(status_code)] for the non-negative status codes HTTP has. *)
Definition status_str (z : Z) : string :=
  NilEmpty.string_of_uint (N.to_uint (Z.to_N z)).

(** Which of the two steps on a response comes first in [_request]: decoding
    the body, or the [is_success]/[graceful] check.  Neither the spec nor the
    tests fix it (src/sdk_creator/adapter.py is not among the repository's
    files), so the model is parametric in it. *)
Inductive check_order := DecodeThenCheck | CheckThenDecode.

(** [raise ApiRaisedFromStatusError(status_code, f"{status_code}: {reason}")]. *)
Definition status_error (r : Response) : api_exception :=
  {| exc_kind := ApiRaisedFromStatusError;
     exc_status_code := Some (r_status_code r);
     exc_message := status_str (r_status_code r) ++ ": " ++ reason_phrase r |}.

(** The body: [response.json()] (its [JSONDecodeError] raised again as
    [ApiResponseError("Bad JSON in response")]) or [response.text]. *)
Definition decode (expect_json_response : bool) (r : Response) : py_result payload :=
  if expect_json_response then
    match r_json r with
    | Some j => Ok (PJson j)
    | None => Raise {| exc_kind := ApiResponseError; exc_status_code := None;
                       exc_message := "Bad JSON in response" |}
    end
  else Ok (PText (r_text r)).

(** Modelled from the spec: the part of [AsyncRestAdapter._request] after the
    client call ("maps the raw response (or transport exception) into a
    [Result] object or raises a typed error"; src/sdk_creator/adapter.py is
    not among the repository's files).  Messages and the [graceful] flag are
    the ones tests/adapter_test.py::TestAsyncRestAdapterErrorHandling pins. *)
Definition handle (order : check_order) (expect_json_response graceful : bool)
    (o : outcome) : py_result Result :=
  match o with
  | TimeoutException m =>
      Raise {| exc_kind := ApiTimeoutError; exc_status_code := None; exc_message := m |}
  | RequestError _ =>
      Raise {| exc_kind := ApiRequestError; exc_status_code := None;
               exc_message := "Request failed" |}
  | Got r =>
      let ok := is_success r || graceful in
      match order with
      | DecodeThenCheck =>
          match decode expect_json_response r with
          | Raise e => Raise e
          | Ok d => if ok then Ok (mkResult (r_status_code r) (reason_phrase r) d)
                    else Raise (status_error r)
          end
      | CheckThenDecode =>
          if negb ok then Raise (status_error r)
          else match decode expect_json_response r with
               | Raise e => Raise e
               | Ok d => Ok (mkResult (r_status_code r) (reason_phrase r) d)
               end
      end
  end.

(** The constructed adapter: the fields the URL depends on. *)
Record adapter := mkAdapter {
  hostname : string;
  api_version : string;
  scheme : string;
  endpoint_prefix : option string;
  base_url : string
}.

Definition default_scheme : string := "https".
Definition default_api_version : string := "v1".

(** pydantic's [HttpUrl.build(scheme=..., host=..., path=...)]: [Some] the
    text [str()] gives of the URL it returns, or [None] where it raises
    [ValidationError].  pydantic is an external library; how it validates
    and normalises a URL is left open here, as the HTTP client is. *)
Definition url_builder : Type := string -> string -> string -> option string.

(** The path handed to [HttpUrl.build]: the api_version, then the
    endpoint_prefix stripped of ['/'] when one is given; an empty prefix
    counts as none. *)
Definition adapter_path (api_version : string) (endpoint_prefix : option string) : string :=
  match endpoint_prefix with
  | Some p => if String.eqb p "" then api_version else api_version ++ "/" ++ PyStr.strip "/" p
  | None => api_version
  end.

(** Modelled from the spec: [AsyncRestAdapter.__init__(hostname, api_version,
    endpoint_prefix, scheme, ...)] ("Adapter builds target URL";
    src/sdk_creator/adapter.py is not among the repository's files).  The
    guards are the ones tests/adapter_test.py pins; [base_url] is what
    [HttpUrl.build] returns (the tests patch [pydantic.HttpUrl.build] and
    compare [str(adapter.base_url)]), and its [ValidationError] propagates.
    Which of the adapter and pydantic drops an empty prefix and the ['/']
    around a prefix is not pinned by the tests; [adapter_path] does it. *)
Definition AsyncRestAdapter (build : url_builder) (hostname api_version : string)
    (endpoint_prefix : option string) (scheme : string) : adapter + value_error :=
  if String.eqb hostname "" then inr (ValueError "hostname cannot be empty")
  else if String.eqb api_version "" then inr (ValueError "api_version cannot be empty")
  else match build scheme hostname (adapter_path api_version endpoint_prefix) with
       | Some url => inl {| hostname := hostname;
                            api_version := api_version;
                            scheme := scheme;
                            endpoint_prefix := endpoint_prefix;
                            base_url := url |}
       | None => inr ValidationError
       end.













(** Modelled from the spec: [AsyncRestAdapter._request(method, endpoint, ...)]
    ("delegates to an external async HTTP client"): one
    [self._client.request] call with the caller's arguments, then
    [handle] on its outcome.  The client holds [base_url], so the endpoint is
    passed as given (tests/adapter_test.py::test_get_request). *)
Definition _request (order : check_order) (self : adapter) (method endpoint : string)
    (params : list (string * json)) (data : option json)
    (headers : option (list (string * string))) (timeout : option Z)
    (expect_json_response graceful : bool) : io (py_result Result) :=
  Call {| rq_method := method; rq_url := endpoint; rq_timeout := timeout;
          rq_headers := headers; rq_params := params; rq_json := data |}
       (fun o => Ret (handle order expect_json_response graceful o)).

(** The verb methods: [get(endpoint, **params)] sends no body; the others
    send [data] as the JSON body.  None of them passes [graceful]. *)
Definition get order self endpoint params headers timeout expect_json_response :=
  _request order self "GET" endpoint params None headers timeout expect_json_response false.

Definition post order self endpoint data params headers timeout expect_json_response :=
  _request order self "POST" endpoint params data headers timeout expect_json_response false.

Definition put order self endpoint data params headers timeout expect_json_response :=
  _request order self "PUT" endpoint params data headers timeout expect_json_response false.

Definition patch order self endpoint data params headers timeout expect_json_response :=
  _request order self "PATCH" endpoint params data headers timeout expect_json_response false.

Definition delete order self endpoint data params headers timeout expect_json_response :=
  _request order self "DELETE" endpoint params data headers timeout expect_json_response false.

End Adapter.

(* ------------------------------------------------------------------ *)
(** ** scripts/update_coverage_badge.py *)

Module CoverageBadge.
Import PyStr.
Local Open Scope Z_scope.

(** Characters are code points 0-255 (Latin-1).  [str.isspace()] on them:
    ['\t'..'\r'], ['\x1c'..'\x1f'], [' '], ['\x85'] and ['\xa0']. *)
Definition is_space (x : ascii) : bool :=
  let n := nat_of_ascii x in
  (((9 <=? n) && (n <=? 13)) || ((28 <=? n) && (n <=? 32)) || (n =? 133) || (n =? 160))%nat.

(** [s.lstrip()], [s.rstrip()] and [s.strip()] without arguments. *)
Fixpoint lstrip_ws (s : string) : string :=
  match s with
  | EmptyString => EmptyString
  | String x s' => if is_space x then lstrip_ws s' else s
  end.

Fixpoint rstrip_ws (s : string) : string :=
  match s with
  | EmptyString => EmptyString
  | String x s' =>
      match rstrip_ws s' with
      | EmptyString => if is_space x then EmptyString else String x EmptyString
      | r => String x r
      end
  end.

Definition strip_ws (s : string) : string := rstrip_ws (lstrip_ws s).

(** The regex class [\d] on code points 0-255: ['0'..'9']. *)
Definition is_digit (x : ascii) : bool :=
  let n := nat_of_ascii x in ((48 <=? n) && (n <=? 57))%nat.

(** The regex class [\w] on code points 0-255: ['_'] and the characters
    [str.isalnum()] accepts (ASCII letters and digits, and the Latin-1
    letters and numerals). *)
Definition is_word (x : ascii) : bool :=
  let n := nat_of_ascii x in
  (is_digit x || is_upper x || is_lower x || (n =? 95)
   || (n =? 170) || (n =? 178) || (n =? 179) || (n =? 181) || (n =? 185)
   || ((186 <=? n) && (n <=? 190)) && negb (n =? 187)
   || ((192 <=? n) && (n <=? 255)) && negb (n =? 215) && negb (n =? 247))%nat.

(** The longest prefix whose characters satisfy [f], and the rest: what a
    greedy [f+] consumes. *)
Fixpoint span (f : ascii -> bool) (s : string) : string * string :=
  match s with
  | EmptyString => (EmptyString, EmptyString)
  | String x s' =>
      if f x then let '(a, b) := span f s' in (String x a, b)
      else (EmptyString, s)
  end.

(** [re.search(r"(\d+)%", s)]: the leftmost start where a run of digits is
    followed by ['%'], and the group.  At a start inside a run, the greedy
    [\d+] takes the whole rest of the run; backtracking to a shorter run
    leaves a digit, not ['%'], next. *)
Fixpoint search_percent (s : string) : option string :=
  match s with
  | EmptyString => None
  | String x s' =>
      match span is_digit s with
      | (String _ _ as d, String y _) => if Ascii.eqb y "%" then Some d else search_percent s'
      | _ => search_percent s'
      end
  end.

(** [int(digits)]. *)
Fixpoint int_of_digits_acc (acc : Z) (s : string) : Z :=
  match s with
  | EmptyString => acc
  | String x s' => int_of_digits_acc (acc * 10 + Z.of_nat (nat_of_ascii x - 48))%Z s'
  end.

Definition int_of_digits (s : string) : Z := int_of_digits_acc 0 s.

(** The outcome of [subprocess.run([...], capture_output=True, text=True,
    check=True)]: the captured [stdout], or the [CalledProcessError] that a
    non-zero exit raises. *)
Inductive completed :=
| Completed (stdout : string)
| CalledProcessError (returncode : Z) (stdout stderr : string).

(** [get_coverage_percentage()], given the outcome of
    [python -m coverage report]. *)
Definition get_coverage_percentage (result : completed) : Z :=
  match result with
  | CalledProcessError _ _ _ => 0%Z
  | Completed stdout =>
      let lines := split "010"%char (strip_ws stdout) in
      let total_line := filter (fun line => String.prefix "TOTAL" line) lines in
      match total_line with
      | first :: _ =>
          match search_percent first with
          | Some g => int_of_digits g
          | None => 0
          end
      | [] => 0
      end
  end.

(** The badge colour of [update_readme_badge]. *)
Definition badge_color (coverage : Z) : string :=
  if 95 <=? coverage then "brightgreen"
  else if 80 <=? coverage then "green"
  else if 70 <=? coverage then "yellow"
  else "red".

(** [f"{coverage}"] for an [int]. *)
Definition int_str (z : Z) : string := NilEmpty.string_of_int (Z.to_int z).

Definition badge_head : string := "[![Coverage](https://img.shields.io/badge/coverage-".

(** [new_badge]. *)
Definition new_badge (coverage : Z) : string :=
  badge_head ++ int_str coverage ++ "%25-" ++ badge_color coverage ++ ".svg)]".

(** [s] with the literal [p] removed from its front, if [s] starts with it. *)
Fixpoint strip_literal (p s : string) : option string :=
  match p, s with
  | EmptyString, _ => Some s
  | String a p', String b s' => if Ascii.eqb a b then strip_literal p' s' else None
  | String _ _, EmptyString => None
  end.

(** [badge_pattern] matched at the front of [s]: what is left after the
    match.  The pattern is the literal [badge_head], [\d+], ["%25-"],
    [\w+], [".svg)]"]; each greedy run is followed by a character outside
    its class (['%'], ['.']), so the whole run is the only way to match. *)
Definition badge_match (s : string) : option string :=
  match strip_literal badge_head s with
  | None => None
  | Some r1 =>
      match span is_digit r1 with
      | (EmptyString, _) => None
      | (_, r2) =>
          match strip_literal "%25-" r2 with
          | None => None
          | Some r3 =>
              match span is_word r3 with
              | (EmptyString, _) => None
              | (_, r4) => strip_literal ".svg)]" r4
              end
          end
      end
  end.

(** [re.search(badge_pattern, s) is not None]. *)
Fixpoint badge_search (s : string) : bool :=
  match badge_match s with
  | Some _ => true
  | None =>
      match s with
      | EmptyString => false
      | String _ s' => badge_search s'
      end
  end.

(** [re.sub(badge_pattern, repl, s)]: left to right, every match replaced
    by [repl] (which holds no backslash), the scan resuming after it;
    elsewhere one character is copied.  A match is never empty, so [fuel]
    [length s + 1] is always enough. *)
Fixpoint badge_sub_fuel (fuel : nat) (repl s : string) : string :=
  match fuel with
  | O => s
  | S f =>
      match badge_match s with
      | Some rest => repl ++ badge_sub_fuel f repl rest
      | None =>
          match s with
          | EmptyString => EmptyString
          | String x s' => String x (badge_sub_fuel f repl s')
          end
      end
  end.

Definition badge_sub (repl s : string) : string :=
  badge_sub_fuel (S (String.length s)) repl s.

(** [os.linesep] on POSIX systems and on Windows. *)
Definition lf : string := String "010"%char EmptyString.
Definition crlf : string := String "013"%char lf.

(** Reading a file in text mode ([open("README.md")], universal newlines):
    ["\r\n"] and a lone ["\r"] become ["\n"]. *)
Fixpoint read_text (s : string) : string :=
  match s with
  | EmptyString => EmptyString
  | String x s' =>
      if Ascii.eqb x "013"%char then
        match s' with
        | String y s'' =>
            if Ascii.eqb y "010"%char then String "010"%char (read_text s'')
            else String "010"%char (read_text s')
        | EmptyString => String "010"%char EmptyString
        end
      else String x (read_text s')
  end.

(** Writing a file in text mode ([open("README.md", "w")]): every ["\n"]
    becomes [os.linesep]. *)
Fixpoint write_text (linesep s : string) : string :=
  match s with
  | EmptyString => EmptyString
  | String x s' =>
      (if Ascii.eqb x "010"%char then linesep else String x EmptyString)
      ++ write_text linesep s'
  end.

(** [update_readme_badge(coverage)] on the bytes of [README.md]: [None]
    when the file cannot be read, in which case the exception is printed
    and nothing is written; otherwise the file is read in text mode, the
    badge substituted and the result written in text mode with the
    platform's [linesep].  The printed messages are not modelled. *)
Definition update_readme_badge (linesep : string) (coverage : Z) (readme : option string)
    : option string :=
  match readme with
  | None => None
  | Some raw =>
      Some (write_text linesep (badge_sub (new_badge coverage) (read_text raw)))
  end.

(** The [__main__] block: [README.md] after the script has run. *)
Definition main (linesep : string) (result : completed) (readme : option string)
    : option string :=
  let coverage := get_coverage_percentage result in
  if 0 <? coverage then update_readme_badge linesep coverage readme else readme.

End CoverageBadge.

(* ------------------------------------------------------------------ *)
(** ** scripts/check_coverage.py *)

Module CheckCoverage.
Import CoverageBadge.
Local Open Scope Z_scope.

Definition test_command : list string :=
  ["python"; "-m"; "coverage"; "run"; "-m"; "pytest"; "tests/"].

Definition report_command : list string :=
  ["python"; "-m"; "coverage"; "report"; "--fail-under=100"].

(** Code that runs subprocesses: done, or one [subprocess.run] and a
    continuation on its outcome. *)
Inductive proc (A : Type) : Type :=
| Done (a : A)
| Run (cmd : list string) (k : completed -> proc A).
Arguments Done {A} a.
Arguments Run {A} cmd k.

(** Running against a machine that answers each command: the value and the
    commands run, in order. *)
Fixpoint exec {A} (machine : list string -> completed) (p : proc A) : A * list (list string) :=
  match p with
  | Done a => (a, [])
  | Run cmd k => let '(a, t) := exec machine (k (machine cmd)) in (a, cmd :: t)
  end.

(** [run_coverage()]: with [check=True] a failing first command raises
    before the second is run; either failure makes it return [False]. *)
Definition run_coverage : proc bool :=
  Run test_command (fun r1 =>
    match r1 with
    | CalledProcessError _ _ _ => Done false
    | Completed _ =>
        Run report_command (fun r2 =>
          match r2 with
          | CalledProcessError _ _ _ => Done false
          | Completed _ => Done true
          end)
    end).

(** The [__main__] block: [sys.exit(0 if success else 1)]. *)
Definition exit_code (machine : list string -> completed) : Z :=
  if fst (exec machine run_coverage) then 0 else 1.

End CheckCoverage.

Example join_endpoints_ex1 : Toolkit.join_endpoints ["api/"; "/v1/"; "/users/"] = "api/v1/users".
Proof. reflexivity. Qed.
Example join_endpoints_ex2 : Toolkit.join_endpoints [""; ""; "test"] = "//test".
Proof. reflexivity. Qed.
Example join_endpoints_ex3 : Toolkit.join_endpoints ["https://api.example.com/v1/"; "users/"; "123"]
  = "https://api.example.com/v1/users/123".
Proof. reflexivity. Qed.
Example to_camelcase_ex1 : Toolkit.to_camelcase_latin1 "triple___underscore" = "tripleUnderscore".
Proof. reflexivity. Qed.
Example to_camelcase_ex2 : Toolkit.to_camelcase_latin1 "Mixed_Case_Var" = "mixedCaseVar".
Proof. reflexivity. Qed.
Example to_camelcase_ex3 : Toolkit.to_camelcase_latin1 "var_with-dash" = "varWith-dash".
Proof. reflexivity. Qed.
Example to_camelcase_api_key : Toolkit.to_camelcase_latin1 "API_KEY" = "apiKey".
Proof. reflexivity. Qed.
Example to_camelcase_private : Toolkit.to_camelcase_latin1 "_private_var" = "PrivateVar".
Proof. reflexivity. Qed.
Example to_camelcase_underscore : Toolkit.to_camelcase_latin1 "_" = "".
Proof. reflexivity. Qed.
Example to_camelcase_alias_clash :
  Toolkit.to_camelcase_latin1 "a_b" = "aB" /\ Toolkit.to_camelcase_latin1 "a__b" = "aB".
Proof. split; reflexivity. Qed.
Example to_camelcase_ex4 : Toolkit.to_camelcase_latin1 "user_id_123" = "userId123".
Proof. reflexivity. Qed.

Example to_camelcase_latin1_letters :
  Toolkit.to_camelcase_latin1 (String "192"%char "_x") = String "224"%char "X" /\
  Toolkit.to_camelcase_latin1 ("x_" ++ String "223"%char EmptyString) = "xSs".
Proof. split; reflexivity. Qed.

(* ------------------------------------------------------------------ *)
(** ** Properties of the [str] methods *)

Module PyStrFacts.
Import PyStr.

Lemma app_assoc_str (a b c : string) : (a ++ b) ++ c = a ++ (b ++ c).
Proof. induction a as [|x a IH]; simpl; [reflexivity | now rewrite IH]. Qed.

Lemma app_empty_str (a : string) : a ++ "" = a.
Proof. induction a as [|x a IH]; simpl; [reflexivity | now rewrite IH]. Qed.

Lemma rep_succ_end (n : nat) (c : ascii) : rep (S n) c = rep n c ++ String c "".
Proof. induction n as [|n IH]; simpl in *; [reflexivity | now rewrite <- IH]. Qed.

(** [lstrip] removes a run of [c] and stops at a character other than [c]. *)
Lemma lstrip_decomp (c : ascii) (s : string) :
  exists n, s = rep n c ++ lstrip c s /\ starts_with c (lstrip c s) = false.
Proof.
  induction s as [|x s IH]; simpl.
  - now exists 0.
  - destruct (Ascii.eqb_spec x c) as [->|Hne].
    + destruct IH as [n [Hs Hst]]. exists (S n). simpl. now rewrite <- Hs.
    + exists 0. simpl. split; [reflexivity|].
      now destruct (Ascii.eqb_spec x c).
Qed.

(** [rstrip] removes a run of [c] at the end and keeps what precedes it. *)
Lemma rstrip_decomp (c : ascii) (s : string) :
  exists m, s = rstrip c s ++ rep m c /\ ends_with c (rstrip c s) = false.
Proof.
  induction s as [|x s IH]; simpl.
  - now exists 0.
  - destruct IH as [m [Hs Hend]].
    destruct (rstrip c s) as [|y r] eqn:Er; simpl in Hs.
    + destruct (Ascii.eqb_spec x c) as [->|Hne].
      * exists (S m). simpl. now rewrite <- Hs.
      * exists m. simpl. rewrite <- Hs. split; [reflexivity|].
        now destruct (Ascii.eqb_spec x c).
    + exists m. simpl. rewrite <- Hs. split; [reflexivity|].
      exact Hend.
Qed.

Lemma rstrip_starts_with (c : ascii) (s : string) :
  starts_with c (rstrip c s) = true -> starts_with c s = true.
Proof.
  destruct (rstrip_decomp c s) as [m [Hs _]].
  destruct (rstrip c s) as [|y r]; simpl; [discriminate|].
  intros H. rewrite Hs. exact H.
Qed.

(** [strip]: the input is a run of [c], the result, and a run of [c]; the
    result neither starts nor ends with [c]. *)
Lemma strip_decomp (c : ascii) (s : string) :
  exists n m, s = rep n c ++ strip c s ++ rep m c
              /\ starts_with c (strip c s) = false
              /\ ends_with c (strip c s) = false.
Proof.
  unfold strip.
  destruct (lstrip_decomp c s) as [n [Hs Hst]].
  destruct (rstrip_decomp c (lstrip c s)) as [m [Hl Hend]].
  exists n, m. split; [|split].
  - rewrite Hs at 1. rewrite Hl at 1. reflexivity.
  - destruct (starts_with c (rstrip c (lstrip c s))) eqn:E; [|reflexivity].
    apply rstrip_starts_with in E. congruence.
  - exact Hend.
Qed.


Lemma split_app_sep (c : ascii) (w t : string) :
  contains c w = false -> split c (w ++ String c t) = w :: split c t.
Proof.
  induction w as [|x w IH]; simpl; intros H.
  - now rewrite Ascii.eqb_refl.
  - apply orb_false_iff in H as [Hx Hw].
    rewrite Hx, (IH Hw). reflexivity.
Qed.


End PyStrFacts.

(* ------------------------------------------------------------------ *)
(** ** The tests of tests/adapter_test.py, replayed on the model *)

Module AdapterTests.
Import Errors Adapter.

(** A stand-in for [HttpUrl.build], as the tests patch it: [scheme://host/path]
    for [http] and [https], [ValidationError] for any other scheme. *)
Definition plain_build : url_builder :=
  fun s h path =>
    if String.eqb s "http" || String.eqb s "https"
    then Some (s ++ "://" ++ h ++ "/" ++ path) else None.

Definition example_adapter : adapter :=
  match AsyncRestAdapter plain_build "api.example.com" default_api_version None default_scheme with
  | inl a => a
  | inr _ => mkAdapter "" "" "" None ""
  end.

Definition ok_response : Response :=
  mkResponse 200 "OK" (Some (JObject [("result", JStr "success")])) "success".

Definition not_found_response : Response :=
  mkResponse 404 "Not Found" (Some (JObject [("error", JStr "Not found")])) "Not found".

Definition bad_json_response : Response :=
  mkResponse 200 "OK" None "Invalid JSON response".

Example init_minimal : base_url example_adapter = "https://api.example.com/v1".
Proof. reflexivity. Qed.

Example get_request (order : check_order) :
  run (fun _ => Got ok_response) (get order example_adapter "users" [] None None true)
  = (Ok (mkResult 200 "OK" (PJson (JObject [("result", JStr "success")]))),
     [mkRequest "GET" "users" None None [] None]).
Proof. destruct order; reflexivity. Qed.

Example timeout_error (order : check_order) :
  value (fun _ => TimeoutException "Request timed out") (get order example_adapter "users" [] None None true)
  = Raise (mkExc ApiTimeoutError None "Request timed out").
Proof. destruct order; reflexivity. Qed.

Example json_decode_error (order : check_order) :
  value (fun _ => Got bad_json_response) (get order example_adapter "users" [] None None true)
  = Raise (mkExc ApiResponseError None "Bad JSON in response").
Proof. destruct order; reflexivity. Qed.

Example http_error_status (order : check_order) :
  value (fun _ => Got not_found_response) (get order example_adapter "users" [] None None true)
  = Raise (mkExc ApiRaisedFromStatusError (Some 404%Z) "404: Not Found").
Proof. destruct order; reflexivity. Qed.

(** The case the order of [_request] decides: a non-success response whose
    body is not JSON.  Decoding first raises [ApiResponseError]; checking
    the status first raises [ApiRaisedFromStatusError]. *)
Lemma decode_first_non_success_bad_json (self : adapter) (endpoint : string)
    (params : list (string * json)) (headers : option (list (string * string)))
    (timeout : option Z) (r : Response)
    (Hfail : is_success r = false) (Hjson : r_json r = None) :
  value (fun _ => Got r) (get DecodeThenCheck self endpoint params headers timeout true)
  = Raise (mkExc ApiResponseError None "Bad JSON in response").
Proof. unfold value, get, _request, handle, decode; simpl. now rewrite Hjson. Qed.

Lemma check_first_non_success (self : adapter) (endpoint : string)
    (params : list (string * json)) (headers : option (list (string * string)))
    (timeout : option Z) (ej : bool) (r : Response)
    (Hfail : is_success r = false) :
  value (fun _ => Got r) (get CheckThenDecode self endpoint params headers timeout ej)
  = Raise (status_error r).
Proof. unfold value, get, _request, handle; simpl. now rewrite Hfail. Qed.

End AdapterTests.

(* ------------------------------------------------------------------ *)
(** ** Plain URL pieces and [HttpUrl.build] *)

Module AdapterFacts.
Import PyStr Errors Adapter AdapterTests.









End AdapterFacts.

(* ------------------------------------------------------------------ *)
(** ** The claims *)

Module Claims.
Import PyStr PyStrFacts Toolkit Errors Adapter.

(** C2 (as stated, refuted): "no one of the five kinds is a subkind of
    another" fails: [ApiRequestError] is a subclass of [ApiError]. *)
Lemma error_taxonomy_not_flat :
  ~ (forall a b : kind, a <> b -> issubclass a b = false).
Proof.
  intros H. specialize (H ApiRequestError ApiError). simpl in H.
  assert (Hne : ApiRequestError <> ApiError) by discriminate.
  specialize (H Hne). discriminate.
Qed.

(** C2 (amended): there are exactly five exception kinds; [ApiError] derives
    from Python's [Exception], each of the other four derives directly from
    [ApiError], and for two distinct kinds [a] and [b], [a] is a subclass of
    [b] exactly when [b] is [ApiError]: none of the four is a subkind of
    another. *)
Theorem error_taxonomy_one_level :
  length all_kinds = 5 /\ NoDup all_kinds /\ (forall k, In k all_kinds) /\
  base ApiError = None /\
  (forall k, k <> ApiError -> base k = Some ApiError) /\
  (forall a b, a <> b -> (issubclass a b = true <-> (b = ApiError /\ a <> ApiError))).
Proof.
  split; [reflexivity|]. split.
  { repeat constructor; simpl; intuition discriminate. }
  split; [intros []; simpl; tauto|]. split; [reflexivity|]. split.
  { intros [] Hk; [congruence| reflexivity ..]. }
  intros [] [] Hab; simpl; split; intros H;
    try discriminate; try (exfalso; now apply Hab); intuition discriminate.
Qed.

(** C5: [join_endpoints] of no endpoint is [""]; of one endpoint it is that
    endpoint stripped; of several, the first stripped, a single ['/'], and
    the join of the rest.  Stripping removes exactly the leading and trailing
    runs of ['/'] (the result neither starts nor ends with ['/']), and an
    empty endpoint contributes an empty piece: [join_endpoints ["", "test"]]
    is ["/test"]. *)
Theorem join_endpoints_spec :
  join_endpoints [] = "" /\
  (forall e, join_endpoints [e] = strip "/" e) /\
  (forall e e' es, join_endpoints (e :: e' :: es)
                   = strip "/" e ++ "/" ++ join_endpoints (e' :: es)) /\
  (forall e, exists n m, e = rep n "/" ++ strip "/" e ++ rep m "/"
                         /\ starts_with "/" (strip "/" e) = false
                         /\ ends_with "/" (strip "/" e) = false) /\
  join_endpoints [""; "test"] = "/test".
Proof.
  split; [reflexivity|]. split; [reflexivity|]. split; [reflexivity|].
  split; [|reflexivity].
  intros e. apply strip_decomp.
Qed.







(** C9: constructing an adapter with an empty hostname (and a valid
    api_version) raises [ValueError("hostname cannot be empty")]; with an
    empty api_version (and a valid hostname) it raises
    [ValueError("api_version cannot be empty")]; in both cases no adapter is
    returned. *)
Theorem init_empty_arguments_rejected (build : url_builder) (h v s : string)
    (p : option string) (Hh : h <> "") (Hv : v <> "") :
  AsyncRestAdapter build "" v p s = inr (ValueError "hostname cannot be empty") /\
  AsyncRestAdapter build h "" p s = inr (ValueError "api_version cannot be empty").
Proof.
  unfold AsyncRestAdapter. split; [reflexivity|].
  destruct (String.eqb_spec h "") as [E|_]; [contradiction|reflexivity].
Qed.

Lemma init_empty_arguments_rejected_witness :
  AsyncRestAdapter AdapterTests.plain_build "" "v1" None "https"
  = inr (ValueError "hostname cannot be empty") /\
  AsyncRestAdapter AdapterTests.plain_build "api.example.com" "" None "https"
  = inr (ValueError "api_version cannot be empty").
Proof.
  apply init_empty_arguments_rejected; discriminate.
Defined.

(** C8: whatever the client answers, each verb method issues exactly one
    client request, whose method string is the verb's and whose endpoint,
    params, body (none for [get]), headers and timeout are the caller's. *)
Theorem verbs_issue_one_request :
  forall (order : check_order) (self : adapter) (client : Request -> outcome)
         (endpoint : string) (params : list (string * json)) (data : option json)
         (headers : option (list (string * string))) (timeout : option Z) (ej : bool),
  requests client (get order self endpoint params headers timeout ej)
    = [mkRequest "GET" endpoint timeout headers params None] /\
  requests client (post order self endpoint data params headers timeout ej)
    = [mkRequest "POST" endpoint timeout headers params data] /\
  requests client (put order self endpoint data params headers timeout ej)
    = [mkRequest "PUT" endpoint timeout headers params data] /\
  requests client (patch order self endpoint data params headers timeout ej)
    = [mkRequest "PATCH" endpoint timeout headers params data] /\
  requests client (delete order self endpoint data params headers timeout ej)
    = [mkRequest "DELETE" endpoint timeout headers params data].
Proof. intros; repeat split. Qed.

(** C10: for a non-success response whose body decodes to [j], [_request]
    with [graceful=True] returns [Result(status_code, reason_phrase, j)],
    and the same call without [graceful] raises [ApiRaisedFromStatusError]
    carrying the status code.  This holds whichever of decoding and the
    status check comes first. *)
Theorem graceful_returns_error_result (order : check_order) (self : adapter)
    (method endpoint : string) (params : list (string * json)) (data : option json)
    (headers : option (list (string * string))) (timeout : option Z)
    (r : Response) (j : json)
    (Hfail : is_success r = false) (Hjson : r_json r = Some j) :
  value (fun _ => Got r) (_request order self method endpoint params data headers timeout true true)
    = Ok (mkResult (r_status_code r) (reason_phrase r) (PJson j)) /\
  (exists e, value (fun _ => Got r)
               (_request order self method endpoint params data headers timeout true false)
             = Raise e /\ exc_kind e = ApiRaisedFromStatusError
             /\ exc_status_code e = Some (r_status_code r)).
Proof.
  unfold value, _request, handle, decode; simpl.
  rewrite Hfail, Hjson. destruct order; simpl.
  - split; [reflexivity|]. eexists; split; [reflexivity|]. split; reflexivity.
  - split; [reflexivity|]. eexists; split; [reflexivity|]. split; reflexivity.
Qed.

Lemma graceful_returns_error_result_witness :
  value (fun _ => Got AdapterTests.not_found_response)
    (_request DecodeThenCheck AdapterTests.example_adapter "GET" "users" [] None None None true true)
    = Ok (mkResult 404 "Not Found" (PJson (JObject [("error", JStr "Not found")]))) /\
  (exists e, value (fun _ => Got AdapterTests.not_found_response)
               (_request DecodeThenCheck AdapterTests.example_adapter "GET" "users" [] None None None true false)
             = Raise e /\ exc_kind e = ApiRaisedFromStatusError
             /\ exc_status_code e = Some 404%Z).
Proof.
  exact (graceful_returns_error_result DecodeThenCheck AdapterTests.example_adapter "GET" "users"
           [] None None None AdapterTests.not_found_response (JObject [("error", JStr "Not found")])
           eq_refl eq_refl).
Defined.

End Claims.

(* ------------------------------------------------------------------ *)
(** ** Properties of the coverage scripts *)

Module CoverageFacts.
Import PyStr PyStrFacts CoverageBadge.
Local Open Scope Z_scope.

Lemma int_of_digits_acc_nonneg (acc : Z) (s : string) :
  0 <= acc -> 0 <= int_of_digits_acc acc s.
Proof.
  revert acc. induction s as [|x s IH]; intros acc Hacc; simpl; [exact Hacc|].
  apply IH. lia.
Qed.

(** [get_coverage_percentage] returns [0] when the coverage command fails,
    and never returns a negative number. *)
Theorem coverage_percentage_nonneg :
  (forall code out err, get_coverage_percentage (CalledProcessError code out err) = 0) /\
  (forall result, 0 <= get_coverage_percentage result).
Proof.
  split; [reflexivity|].
  intros [out|code out err]; simpl; [|lia].
  destruct (filter _ _) as [|first _]; [lia|].
  destruct (search_percent first); [|lia].
  apply int_of_digits_acc_nonneg; lia.
Qed.

(** Ranks of the badge colours, worst first. *)
Definition color_rank (c : string) : Z :=
  if String.eqb c "brightgreen" then 3
  else if String.eqb c "green" then 2
  else if String.eqb c "yellow" then 1
  else 0.

(** The badge colour never gets worse as coverage grows. *)
Theorem badge_color_monotone (c1 c2 : Z) (Hle : c1 <= c2) :
  color_rank (badge_color c1) <= color_rank (badge_color c2).
Proof.
  unfold badge_color.
  destruct (95 <=? c1) eqn:E1, (95 <=? c2) eqn:E2,
           (80 <=? c1) eqn:E3, (80 <=? c2) eqn:E4,
           (70 <=? c1) eqn:E5, (70 <=? c2) eqn:E6;
    rewrite ?Z.leb_le, ?Z.leb_gt in *; cbv; try discriminate; lia.
Qed.

Lemma badge_color_monotone_witness :
  color_rank (badge_color 79) <= color_rank (badge_color 80).
Proof. apply badge_color_monotone. lia. Defined.

Lemma badge_sub_fuel_no_match (fuel : nat) (repl s : string) :
  badge_search s = false -> badge_sub_fuel fuel repl s = s.
Proof.
  revert s. induction fuel as [|f IH]; intros s H; [reflexivity|].
  cbn [badge_sub_fuel].
  destruct s as [|x s'].
  - change (badge_search "") with
      (match badge_match "" with Some _ => true | None => false end) in H.
    destruct (badge_match ""); [discriminate|reflexivity].
  - change (badge_search (String x s')) with
      (match badge_match (String x s') with Some _ => true | None => badge_search s' end) in H.
    destruct (badge_match (String x s')); [discriminate|].
    f_equal. now apply IH.
Qed.

Lemma read_text_id (s : string) : contains "013" s = false -> read_text s = s.
Proof.
  induction s as [|x s IH]; intros H; [reflexivity|].
  cbn [contains] in H. apply orb_false_iff in H as [Hx H].
  cbn [read_text]. rewrite Hx. f_equal. now apply IH.
Qed.

Lemma write_text_lf (s : string) : write_text lf s = s.
Proof.
  induction s as [|x s IH]; [reflexivity|]. cbn [write_text].
  destruct (Ascii.eqb_spec x "010") as [->|_]; simpl; now rewrite IH.
Qed.

(** A README whose text holds no badge [re.search] finds is only rewritten
    with its line endings normalised: read and written in text mode.  With
    no ["\r"] in it and [os.linesep] ["\n"] it is written back unchanged.  A
    README that cannot be read is not written. *)
Theorem update_without_badge_only_newlines (linesep : string) (coverage : Z) (raw : string)
    (Hnone : badge_search (read_text raw) = false) :
  update_readme_badge linesep coverage (Some raw) = Some (write_text linesep (read_text raw)) /\
  (contains "013" raw = false -> update_readme_badge lf coverage (Some raw) = Some raw) /\
  update_readme_badge linesep coverage None = None.
Proof.
  assert (Hsub : badge_sub (new_badge coverage) (read_text raw) = read_text raw)
    by (unfold badge_sub; now apply badge_sub_fuel_no_match).
  split; [simpl; now rewrite Hsub|]. split; [|reflexivity].
  intros Hcr. simpl. rewrite Hsub, write_text_lf. f_equal. now apply read_text_id.
Qed.

Lemma update_without_badge_only_newlines_witness :
  update_readme_badge crlf 90 (Some ("# sdk-creator" ++ crlf ++ "[![PyPI](x.svg)]" ++ crlf))
  = Some (write_text crlf (read_text ("# sdk-creator" ++ crlf ++ "[![PyPI](x.svg)]" ++ crlf))) /\
  (contains "013" ("# sdk-creator" ++ crlf ++ "[![PyPI](x.svg)]" ++ crlf) = false ->
   update_readme_badge lf 90 (Some ("# sdk-creator" ++ crlf ++ "[![PyPI](x.svg)]" ++ crlf))
   = Some ("# sdk-creator" ++ crlf ++ "[![PyPI](x.svg)]" ++ crlf)) /\
  update_readme_badge crlf 90 None = None.
Proof. apply update_without_badge_only_newlines. reflexivity. Defined.

Fixpoint all_chars (f : ascii -> bool) (s : string) : bool :=
  match s with
  | EmptyString => true
  | String x s' => f x && all_chars f s'
  end.

Lemma span_all (f : ascii -> bool) (a : string) (y : ascii) (b : string) :
  all_chars f a = true -> f y = false -> span f (a ++ String y b) = (a, String y b).
Proof.
  induction a as [|x a IH]; simpl; intros Ha Hy.
  - now rewrite Hy.
  - apply andb_true_iff in Ha as [Hx Ha]. rewrite Hx, (IH Ha Hy). reflexivity.
Qed.

Lemma strip_literal_app (p s : string) : strip_literal p (p ++ s) = Some s.
Proof. induction p as [|x p IH]; simpl; [reflexivity|]. now rewrite Ascii.eqb_refl. Qed.

Lemma string_of_uint_digits (u : Decimal.uint) :
  all_chars is_digit (NilEmpty.string_of_uint u) = true.
Proof. induction u; simpl; auto. Qed.

Lemma int_str_nonneg (c : Z) (Hc : 0 <= c) :
  exists x r, int_str c = String x r /\ all_chars is_digit (String x r) = true.
Proof.
  unfold int_str. destruct c as [|p|p]; simpl.
  - exists "0"%char, "". split; reflexivity.
  - pose proof (DecimalPos.Unsigned.to_uint_nonnil p) as Hnn.
    pose proof (string_of_uint_digits (Pos.to_uint p)) as Hd.
    destruct (Pos.to_uint p); try congruence; simpl in *; eexists _, _; split; eauto.
  - lia.
Qed.

Lemma badge_color_word (c : Z) :
  exists x r, badge_color c = String x r /\ all_chars is_word (String x r) = true.
Proof.
  unfold badge_color.
  destruct (95 <=? c), (80 <=? c), (70 <=? c); eexists _, _; split; reflexivity.
Qed.

(** The badge written for a coverage [c >= 0] is matched in full by
    [badge_pattern] whatever follows it, so the next run finds and replaces
    it again; for a negative [c] the pattern does not match it ([\d+] does
    not accept the minus sign). *)
Theorem new_badge_matches (c : Z) (t : string) :
  badge_match (new_badge c ++ t) = if 0 <=? c then Some t else None.
Proof.
  unfold new_badge. rewrite !app_assoc_str.
  unfold badge_match. rewrite strip_literal_app.
  destruct (0 <=? c) eqn:Hc.
  - apply Z.leb_le in Hc.
    destruct (int_str_nonneg c Hc) as [x [r [-> Hd]]].
    change ("%25-" ++ ?z) with (String "%" ("25-" ++ z)).
    rewrite (span_all is_digit (String x r) "%" _ Hd eq_refl).
    change (String "%" ("25-" ++ ?z)) with ("%25-" ++ z).
    rewrite strip_literal_app.
    destruct (badge_color_word c) as [y [q [-> Hw]]].
    change (".svg)]" ++ ?z) with (String "." ("svg)]" ++ z)).
    rewrite (span_all is_word (String y q) "." _ Hw eq_refl).
    change (String "." ("svg)]" ++ ?z)) with (".svg)]" ++ z).
    apply strip_literal_app.
  - apply Z.leb_gt in Hc.
    unfold int_str. destruct c as [|p|p]; try lia. reflexivity.
Qed.

(** The text of report lines, each ended by a newline. *)
Fixpoint lines_text (ls : list string) : string :=
  match ls with
  | [] => ""
  | l :: ls' => l ++ String "010" (lines_text ls')
  end.

Definition starts_with_space (s : string) : bool :=
  match s with
  | EmptyString => false
  | String x _ => is_space x
  end.

Fixpoint ends_with_digit (s : string) : bool :=
  match s with
  | EmptyString => false
  | String x EmptyString => is_digit x
  | String _ s' => ends_with_digit s'
  end.

Lemma contains_app (c : ascii) (a b : string) :
  contains c (a ++ b) = contains c a || contains c b.
Proof. induction a as [|x a IH]; simpl; [reflexivity|]. rewrite IH. apply orb_assoc. Qed.

Lemma all_chars_not_contains (f : ascii -> bool) (c : ascii) (s : string) :
  all_chars f s = true -> f c = false -> contains c s = false.
Proof.
  induction s as [|x s IH]; simpl; [reflexivity|]. intros H Hc.
  apply andb_true_iff in H as [Hx Hs].
  destruct (Ascii.eqb_spec x c) as [->|_]; [congruence|]. simpl. now apply IH.
Qed.

Lemma lstrip_ws_no_space (s : string) : starts_with_space s = false -> lstrip_ws s = s.
Proof. destruct s as [|x s]; simpl; [reflexivity|]. now intros ->. Qed.

Lemma rstrip_ws_keep (X : string) (y : ascii) (R : string) :
  is_space y = false -> rstrip_ws (X ++ String y R) = X ++ String y (rstrip_ws R).
Proof.
  intros Hy. induction X as [|x X IH]; simpl.
  - destruct (rstrip_ws R); [now rewrite Hy|reflexivity].
  - rewrite IH. destruct X; reflexivity.
Qed.

Lemma split_nonempty (c : ascii) (t : string) : split c t <> [].
Proof.
  induction t as [|x t IH]; simpl; [discriminate|].
  destruct (Ascii.eqb x c); [discriminate|]. destruct (split c t); discriminate.
Qed.

Lemma split_app_no_sep (c : ascii) (w t : string) :
  contains c w = false ->
  split c (w ++ t) = (w ++ hd "" (split c t)) :: tl (split c t).
Proof.
  induction w as [|x w IH]; simpl; intros H.
  - pose proof (split_nonempty c t). destruct (split c t); [congruence|reflexivity].
  - apply orb_false_iff in H as [Hx Hw]. rewrite Hx, (IH Hw). reflexivity.
Qed.

Lemma split_lines_text (pre : list string) (t : string) :
  Forall (fun l => contains "010" l = false) pre ->
  split "010" (lines_text pre ++ t) = (pre ++ split "010" t)%list.
Proof.
  induction pre as [|l pre IH]; intros H; simpl; [reflexivity|].
  inversion H as [|? ? Hl Hpre]; subst.
  rewrite app_assoc_str. simpl. rewrite (split_app_sep _ l _ Hl). now rewrite (IH Hpre).
Qed.

Lemma span_digit_head_not_percent (q z : string) :
  q <> "" -> ends_with_digit q = false -> contains "%" q = false ->
  exists a y b, span is_digit (q ++ z) = (a, String y b) /\ Ascii.eqb y "%" = false.
Proof.
  induction q as [|x q IH]; intros Hne Hend Hpc; [congruence|].
  simpl in Hpc. apply orb_false_iff in Hpc as [Hx Hq].
  simpl. destruct (is_digit x) eqn:Hd.
  - destruct q as [|x' q'].
    + simpl in Hend. congruence.
    + destruct (IH ltac:(discriminate) Hend Hq) as [a [y [b [Hs Hy]]]].
      rewrite Hs. exists (String x a), y, b. split; [reflexivity|exact Hy].
  - exists "", x, (q ++ z). split; [reflexivity|exact Hx].
Qed.

Lemma search_percent_cons (x : ascii) (s' : string) :
  search_percent (String x s') =
  match span is_digit (String x s') with
  | (String _ _ as d, String y _) => if Ascii.eqb y "%" then Some d else search_percent s'
  | _ => search_percent s'
  end.
Proof. reflexivity. Qed.

Lemma search_percent_after (p d z : string) :
  contains "%" p = false -> ends_with_digit p = false ->
  d <> "" -> all_chars is_digit d = true ->
  search_percent (p ++ d ++ String "%" z) = Some d.
Proof.
  intros Hp Hend Hne Hd. induction p as [|x p IH].
  - destruct d as [|x d']; [congruence|].
    change ("" ++ String x d' ++ String "%" z) with (String x (d' ++ String "%" z)).
    rewrite search_percent_cons.
    change (String x (d' ++ String "%" z)) with (String x d' ++ String "%" z).
    rewrite (span_all is_digit (String x d') "%" z Hd eq_refl). reflexivity.
  - simpl in Hp. apply orb_false_iff in Hp as [Hx Hp'].
    assert (Hend' : ends_with_digit p = false)
      by (destruct p; [reflexivity|exact Hend]).
    change (String x p ++ d ++ String "%" z) with (String x (p ++ d ++ String "%" z)).
    rewrite search_percent_cons.
    destruct (span_digit_head_not_percent (String x p) (d ++ String "%" z)
                ltac:(discriminate) Hend ltac:(simpl; now rewrite Hx)) as [a [y [b [Hs Hy]]]].
    change (String x p ++ d ++ String "%" z) with (String x (p ++ d ++ String "%" z)) in Hs.
    rewrite Hs, Hy. destruct a; exact (IH Hp' Hend').
Qed.

Lemma ends_with_digit_app (a b : string) :
  b <> "" -> ends_with_digit (a ++ b) = ends_with_digit b.
Proof.
  intros Hb. induction a as [|x a IH]; simpl; [reflexivity|].
  rewrite IH. destruct a; simpl; [destruct b; [congruence|reflexivity]|reflexivity].
Qed.

Lemma prefix_app_self (p t : string) : String.prefix p (p ++ t) = true.
Proof.
  induction p as [|x p IH]; simpl; [destruct t; reflexivity|].
  destruct (ascii_dec x x); [exact IH|congruence].
Qed.

Lemma filter_no_total (pre : list string) :
  Forall (fun l => String.prefix "TOTAL" l = false) pre ->
  filter (fun line => String.prefix "TOTAL" line) pre = [].
Proof.
  induction 1 as [|l pre Hl _ IH]; simpl; [reflexivity|]. now rewrite Hl.
Qed.

(** [get_coverage_percentage] reads the number before the first ['%'] of
    the first line that starts with ["TOTAL"]: for a report made of lines
    [pre] (none starting with ["TOTAL"]; the report not starting with
    whitespace), then ["TOTAL"], columns [cols] holding no ['%'] and not
    ending in a digit, the digits [d], ['%'] and anything after, the result
    is [int(d)]. *)
Theorem coverage_from_total_line (pre : list string) (cols d rest : string)
    (Hpre_nl : Forall (fun l => contains "010" l = false) pre)
    (Hpre_total : Forall (fun l => String.prefix "TOTAL" l = false) pre)
    (Hstart : starts_with_space (lines_text pre) = false)
    (Hcols : contains "%" cols = false) (Hcols_nl : contains "010" cols = false)
    (Hcols_end : ends_with_digit cols = false)
    (Hd : all_chars is_digit d = true) (Hdne : d <> "") :
  get_coverage_percentage
    (Completed (lines_text pre ++ "TOTAL" ++ cols ++ d ++ "%" ++ rest)) = int_of_digits d.
Proof.
  unfold get_coverage_percentage, strip_ws.
  replace ("TOTAL" ++ cols ++ d ++ "%" ++ rest) with (("TOTAL" ++ cols ++ d) ++ String "%" rest)
    by (rewrite !app_assoc_str; reflexivity).
  rewrite lstrip_ws_no_space.
  2:{ destruct pre as [|l pre]; [reflexivity|].
      simpl in Hstart |- *. destruct l; simpl in *; [exact Hstart|exact Hstart]. }
  rewrite <- app_assoc_str, rstrip_ws_keep by reflexivity.
  rewrite app_assoc_str, split_lines_text by exact Hpre_nl.
  assert (Hnl : contains "010" (("TOTAL" ++ cols ++ d) ++ "%") = false).
  { rewrite !contains_app, Hcols_nl.
    rewrite (all_chars_not_contains is_digit "010" d Hd eq_refl). reflexivity. }
  replace (("TOTAL" ++ cols ++ d) ++ String "%" (rstrip_ws rest))
    with ((("TOTAL" ++ cols ++ d) ++ "%") ++ rstrip_ws rest)
    by (rewrite app_assoc_str; reflexivity).
  rewrite (split_app_no_sep _ _ _ Hnl).
  rewrite filter_app.
  rewrite filter_no_total by exact Hpre_total.
  cbn [app filter]. rewrite !app_assoc_str, prefix_app_self.
  replace ("TOTAL" ++ cols ++ d ++ "%" ++ hd "" (split "010" (rstrip_ws rest)))
    with (("TOTAL" ++ cols) ++ d ++ String "%" (hd "" (split "010" (rstrip_ws rest))))
    by (rewrite !app_assoc_str; reflexivity).
  rewrite search_percent_after; [reflexivity| | |exact Hdne|exact Hd].
  - rewrite contains_app, Hcols. reflexivity.
  - destruct cols as [|cx cols']; [reflexivity|].
    rewrite ends_with_digit_app by discriminate. exact Hcols_end.
Qed.

Lemma coverage_from_total_line_witness :
  get_coverage_percentage
    (Completed (lines_text ["Name   Stmts   Miss  Cover"; "src/a.py   10   1   90%"]
                ++ "TOTAL" ++ "   120   8   " ++ "93" ++ "%" ++ String "010" EmptyString))
  = int_of_digits "93".
Proof.
  apply coverage_from_total_line;
    [repeat constructor | repeat constructor | reflexivity | reflexivity | reflexivity
    | reflexivity | reflexivity | discriminate].
Defined.

Lemma length_app_str (a b : string) : String.length (a ++ b) = (String.length a + String.length b)%nat.
Proof. induction a as [|x a IH]; simpl; [reflexivity|]. now rewrite IH. Qed.

Lemma strip_literal_some (p s r : string) : strip_literal p s = Some r -> s = p ++ r.
Proof.
  revert s. induction p as [|a p IH]; intros s H; simpl in H.
  - now injection H as ->.
  - destruct s as [|b s]; [discriminate|].
    destruct (Ascii.eqb_spec a b) as [->|]; [|discriminate]. simpl. f_equal. now apply IH.
Qed.

Lemma span_some (f : ascii -> bool) (s a b : string) : span f s = (a, b) -> s = a ++ b.
Proof.
  revert a b. induction s as [|x s IH]; intros a b H; simpl in H.
  - now injection H as <- <-.
  - destruct (f x).
    + destruct (span f s) as [a' b'] eqn:E. injection H as <- <-. simpl. f_equal. now apply IH.
    + now injection H as <- <-.
Qed.

Lemma badge_match_some (s r : string) :
  badge_match s = Some r -> exists m, m <> EmptyString /\ s = m ++ r.
Proof.
  unfold badge_match. intros H.
  destruct (strip_literal badge_head s) as [r1|] eqn:E1; [|discriminate].
  destruct (span is_digit r1) as [a b] eqn:E2. destruct a as [|xa a]; [discriminate|].
  destruct (strip_literal "%25-" b) as [r3|] eqn:E3; [|discriminate].
  destruct (span is_word r3) as [a' b'] eqn:E4. destruct a' as [|xa' a']; [discriminate|].
  apply strip_literal_some in E1, E3, H. apply span_some in E2, E4. subst.
  exists (badge_head ++ String xa a ++ "%25-" ++ String xa' a' ++ ".svg)]").
  split; [discriminate|]. now rewrite !app_assoc_str.
Qed.

Lemma badge_match_shorter (s r : string) :
  badge_match s = Some r -> (String.length r < String.length s)%nat.
Proof.
  intros H. destruct (badge_match_some s r H) as [m [Hm ->]].
  rewrite length_app_str. destruct m; [congruence|simpl; lia].
Qed.

Lemma badge_sub_fuel_enough (f1 f2 : nat) (repl s : string) :
  (String.length s < f1)%nat -> (String.length s < f2)%nat ->
  badge_sub_fuel f1 repl s = badge_sub_fuel f2 repl s.
Proof.
  revert f2 s. induction f1 as [|f1 IH]; intros [|f2] s H1 H2; try lia.
  cbn [badge_sub_fuel]. destruct (badge_match s) as [r|] eqn:E.
  - apply badge_match_shorter in E. f_equal. apply IH; lia.
  - destruct s as [|x s]; [reflexivity|]. simpl in H1, H2. f_equal. apply IH; lia.
Qed.

Lemma badge_sub_match (repl s r : string) :
  badge_match s = Some r -> badge_sub repl s = repl ++ badge_sub repl r.
Proof.
  intros E. unfold badge_sub at 1. cbn [badge_sub_fuel]. rewrite E. f_equal.
  unfold badge_sub. apply badge_sub_fuel_enough; apply badge_match_shorter in E; lia.
Qed.

Lemma badge_sub_skip (repl : string) (x : ascii) (s : string) :
  badge_match (String x s) = None -> badge_sub repl (String x s) = String x (badge_sub repl s).
Proof.
  intros E. unfold badge_sub at 1. cbn [badge_sub_fuel]. rewrite E. reflexivity.
Qed.

Lemma badge_sub_empty (repl : string) : badge_sub repl EmptyString = EmptyString.
Proof. reflexivity. Qed.

(** Where [s] has a match, [re.sub] copies the text before the first one,
    writes [repl] for it and goes on after it. *)
Lemma badge_sub_first (repl s : string) :
  badge_search s = true ->
  exists v m r, s = v ++ m /\ badge_match m = Some r /\
                badge_sub repl s = v ++ repl ++ badge_sub repl r.
Proof.
  induction s as [|x s IH]; intros H.
  - discriminate.
  - destruct (badge_match (String x s)) as [r|] eqn:E.
    + exists EmptyString, (String x s), r. split; [reflexivity|]. split; [exact E|].
      exact (badge_sub_match repl _ r E).
    + change (badge_search (String x s)) with
        (match badge_match (String x s) with Some _ => true | None => badge_search s end) in H.
      rewrite E in H. destruct (IH H) as [v [m [r [Hs [Hm Hsub]]]]].
      exists (String x v), m, r. split; [simpl; now f_equal|]. split; [exact Hm|].
      rewrite badge_sub_skip by exact E. rewrite Hsub. reflexivity.
Qed.

Lemma strip_literal_cons (a : ascii) (p : string) (b : ascii) (s : string) :
  strip_literal (String a p) (String b s) = if Ascii.eqb a b then strip_literal p s else None.
Proof. reflexivity. Qed.

Lemma strip_literal_app_gen (p u w : string) :
  strip_literal p (u ++ w) =
  match strip_literal p u with
  | Some r => Some (r ++ w)
  | None => match strip_literal u p with Some p' => strip_literal p' w | None => None end
  end.
Proof.
  revert u. induction p as [|a p IH]; intros u.
  - destruct u; reflexivity.
  - destruct u as [|b u]; [reflexivity|]. simpl.
    rewrite (Ascii.eqb_sym b a). destruct (Ascii.eqb a b); [apply IH|reflexivity].
Qed.

(** A pattern piece [q] that cannot match at a place where ["[!"] starts. *)
Definition no_bang (q : string) : bool :=
  match q with
  | EmptyString => false
  | String a EmptyString => negb (Ascii.eqb a "[")
  | String a (String b _) => negb (Ascii.eqb a "[" && Ascii.eqb b "!")
  end.

Fixpoint all_suffixes_no_bang (p : string) : bool :=
  match p with
  | EmptyString => true
  | String _ p' => no_bang p && all_suffixes_no_bang p'
  end.

Lemma no_bang_none (q z : string) :
  no_bang q = true -> strip_literal q (String "[" (String "!" z)) = None.
Proof.
  destruct q as [|a [|b q]]; simpl; [discriminate| |].
  - destruct (Ascii.eqb a "["); simpl; [discriminate|reflexivity].
  - destruct (Ascii.eqb a "["); simpl; [|reflexivity].
    destruct (Ascii.eqb b "!"); simpl; [discriminate|]. destruct q; reflexivity.
Qed.

Lemma suffix_no_bang (p u p' : string) :
  all_suffixes_no_bang p = true -> strip_literal u p = Some p' -> p' <> EmptyString ->
  no_bang p' = true.
Proof.
  revert u. induction p as [|a p IH]; intros u Hall H Hne.
  - destruct u; simpl in H; [now injection H as <-|discriminate].
  - simpl in Hall. apply andb_true_iff in Hall as [Hp Hall].
    destruct u as [|b u]; simpl in H; [now injection H as <-|].
    destruct (Ascii.eqb b a); [|discriminate]. exact (IH u Hall H Hne).
Qed.

(** A literal piece of [badge_pattern] none of whose suffixes starts like
    ["[!"] sees the same thing whether ["[!"] or anything after it follows. *)
Lemma strip_literal_before_bang (p u z : string) :
  all_suffixes_no_bang p = true ->
  strip_literal p (u ++ String "[" (String "!" z)) =
  option_map (fun r => r ++ String "[" (String "!" z)) (strip_literal p u).
Proof.
  intros Hall. rewrite strip_literal_app_gen.
  destruct (strip_literal p u) as [r|] eqn:E; [reflexivity|].
  destruct (strip_literal u p) as [p'|] eqn:E'; [|reflexivity].
  destruct p' as [|y p''].
  - apply strip_literal_some in E'. rewrite app_empty_str in E'. subst p.
    pose proof (strip_literal_app u EmptyString) as H'. rewrite app_empty_str in H'.
    congruence.
  - apply no_bang_none. exact (suffix_no_bang p u _ Hall E' ltac:(discriminate)).
Qed.

Lemma span_before_stop (f : ascii -> bool) (u : string) (y : ascii) (z : string) :
  f y = false ->
  span f (u ++ String y z) = let '(a, b) := span f u in (a, b ++ String y z).
Proof.
  intros Hy. induction u as [|x u IH]; simpl; [now rewrite Hy|].
  destruct (f x); [|reflexivity]. rewrite IH. now destruct (span f u).
Qed.

(** A match that starts before a place where ["[!"] is written never
    reaches it: ['['] occurs in [badge_pattern]'s text only at offsets 0
    and 2, and the latter is followed by ['C']. *)
Lemma badge_match_before_bang (u z : string) :
  u <> EmptyString ->
  badge_match (u ++ String "[" (String "!" z)) =
  option_map (fun r => r ++ String "[" (String "!" z)) (badge_match u).
Proof.
  intros Hu. unfold badge_match.
  destruct u as [|x u]; [congruence|].
  change badge_head with (String "[" (substring 1 60 badge_head)).
  change (String x u ++ String "[" (String "!" z)) with (String x (u ++ String "[" (String "!" z))).
  rewrite !(strip_literal_cons "["). destruct (Ascii.eqb "[" x); [|reflexivity].
  rewrite strip_literal_before_bang by reflexivity.
  destruct (strip_literal (substring 1 60 badge_head) u) as [r1|]; [|reflexivity].
  cbn [option_map]. rewrite span_before_stop by reflexivity.
  destruct (span is_digit r1) as [a b]. destruct a as [|xa a]; [reflexivity|].
  rewrite strip_literal_before_bang by reflexivity.
  destruct (strip_literal "%25-" b) as [r3|]; [|reflexivity].
  cbn [option_map]. rewrite span_before_stop by reflexivity.
  destruct (span is_word r3) as [a' b']. destruct a' as [|xa' a']; [reflexivity|].
  apply strip_literal_before_bang. reflexivity.
Qed.

Lemma badge_match_bang (s r : string) :
  badge_match s = Some r -> exists z, s = String "[" (String "!" z).
Proof.
  unfold badge_match. destruct (strip_literal badge_head s) as [r1|] eqn:E; [|discriminate].
  intros _. apply strip_literal_some in E. subst. eexists. reflexivity.
Qed.

(** Writing a replacement that starts with ["[!"] into the text after a
    place where no match starts creates no match there. *)
Lemma badge_sub_keeps_no_match (repl' : string) (x : ascii) (s : string) :
  badge_match (String x s) = None ->
  badge_match (String x (badge_sub (String "[" (String "!" repl')) s)) = None.
Proof.
  intros H. destruct (badge_search s) eqn:Hs.
  - destruct (badge_sub_first (String "[" (String "!" repl')) s Hs) as [v [m [r [-> [Hm ->]]]]].
    destruct (badge_match_bang m r Hm) as [z ->].
    change (String x (v ++ String "[" (String "!" z))) with (String x v ++ String "[" (String "!" z)) in H.
    change (String x (v ++ String "[" (String "!" repl') ++ badge_sub (String "[" (String "!" repl')) r))
      with (String x v ++ String "[" (String "!" (repl' ++ badge_sub (String "[" (String "!" repl')) r))).
    rewrite badge_match_before_bang in H |- * by discriminate.
    destruct (badge_match (String x v)); [discriminate|reflexivity].
  - unfold badge_sub. now rewrite badge_sub_fuel_no_match.
Qed.

Lemma new_badge_bang (c : Z) :
  exists repl', new_badge c = String "[" (String "!" repl').
Proof. eexists. reflexivity. Qed.

Lemma badge_sub_twice (c1 : Z) (repl2 s : string) :
  0 <= c1 -> badge_sub repl2 (badge_sub (new_badge c1) s) = badge_sub repl2 s.
Proof.
  intros Hc1. remember (String.length s) as n eqn:Hn.
  revert s Hn. induction n as [n IH] using lt_wf_ind. intros s Hn.
  destruct (badge_match s) as [r|] eqn:E.
  - rewrite (badge_sub_match _ s r E), (badge_sub_match repl2 s r E).
    rewrite (badge_sub_match repl2 _ (badge_sub (new_badge c1) r)).
    2:{ rewrite new_badge_matches. now replace (0 <=? c1) with true by lia. }
    f_equal. apply (IH (String.length r)); [|reflexivity].
    subst. now apply badge_match_shorter.
  - destruct s as [|x s]; [reflexivity|].
    rewrite (badge_sub_skip _ x s E), (badge_sub_skip repl2 x s E).
    destruct (new_badge_bang c1) as [repl' Hrepl]. rewrite Hrepl.
    rewrite badge_sub_skip by (apply badge_sub_keeps_no_match; exact E).
    rewrite <- Hrepl. f_equal. apply (IH (String.length s)); [|reflexivity].
    subst. simpl. lia.
Qed.

Lemma read_text_no_cr (s : string) : contains "013" (read_text s) = false.
Proof.
  remember (String.length s) as n eqn:Hn. revert s Hn.
  induction n as [n IH] using lt_wf_ind. intros s Hn.
  destruct s as [|x s']; [reflexivity|].
  cbn [read_text]. destruct (Ascii.eqb x "013") eqn:Ex.
  - destruct s' as [|y s'']; [reflexivity|].
    destruct (Ascii.eqb y "010").
    + cbn [contains]. rewrite (IH (String.length s'')); [reflexivity| |reflexivity].
      subst. simpl. lia.
    + cbn [contains]. rewrite (IH (String.length (String y s''))); [reflexivity| |reflexivity].
      subst. simpl. lia.
  - cbn [contains]. rewrite Ex, (IH (String.length s')); [reflexivity| |reflexivity].
    subst. simpl. lia.
Qed.

(** Text written in text mode reads back as it was, on POSIX systems and on
    Windows, when it holds no ["\r"]. *)
Lemma read_write_text (linesep y : string) :
  (linesep = lf \/ linesep = crlf) -> contains "013" y = false ->
  read_text (write_text linesep y) = y.
Proof.
  intros Hls. induction y as [|x y IH]; intros Hy; [reflexivity|].
  cbn [contains] in Hy. apply orb_false_iff in Hy as [Hx Hy].
  cbn [write_text]. destruct (Ascii.eqb_spec x "010") as [->|Hn].
  - destruct Hls as [-> | ->]; simpl; now rewrite IH.
  - simpl. cbn [read_text]. rewrite Hx. f_equal. now apply IH.
Qed.

Lemma badge_sub_no_cr (repl s : string) :
  contains "013" repl = false -> contains "013" s = false ->
  contains "013" (badge_sub repl s) = false.
Proof.
  intros Hr. remember (String.length s) as n eqn:Hn. revert s Hn.
  induction n as [n IH] using lt_wf_ind. intros s Hn Hs.
  destruct (badge_match s) as [r|] eqn:E.
  - rewrite (badge_sub_match repl s r E), contains_app, Hr. simpl.
    destruct (badge_match_some s r E) as [m [_ Hsm]].
    rewrite Hsm, contains_app in Hs. apply orb_false_iff in Hs as [_ Hs].
    apply (IH (String.length r)); [|reflexivity|exact Hs].
    subst. now apply badge_match_shorter.
  - destruct s as [|x s']; [reflexivity|].
    rewrite (badge_sub_skip repl x s' E).
    cbn [contains] in Hs |- *. apply orb_false_iff in Hs as [Hx Hs]. rewrite Hx. simpl.
    apply (IH (String.length s')); [|reflexivity|exact Hs].
    subst. simpl. lia.
Qed.

Lemma new_badge_no_cr (c : Z) : 0 <= c -> contains "013" (new_badge c) = false.
Proof.
  intros Hc. unfold new_badge. rewrite !contains_app.
  destruct (int_str_nonneg c Hc) as [x [r [Hxr Hd]]].
  rewrite Hxr, (all_chars_not_contains is_digit "013" _ Hd eq_refl).
  unfold badge_color. destruct (95 <=? c), (80 <=? c), (70 <=? c); reflexivity.
Qed.

(** Running [update_readme_badge] with [c1] and then with [c2] leaves
    [README.md] as running it with [c2] alone, on POSIX systems and on
    Windows: the badge written for a coverage [c1 >= 0] is found again and
    replaced, nothing else of the text is matched because of it, and the
    text written in text mode reads back as it was written. *)
Theorem update_latest_wins (linesep : string) (Hls : linesep = lf \/ linesep = crlf)
    (c1 c2 : Z) (readme : option string) (Hc1 : 0 <= c1) :
  update_readme_badge linesep c2 (update_readme_badge linesep c1 readme)
  = update_readme_badge linesep c2 readme.
Proof.
  destruct readme as [raw|]; [|reflexivity]. simpl. f_equal.
  rewrite read_write_text by
    (exact Hls || (apply badge_sub_no_cr; [now apply new_badge_no_cr | apply read_text_no_cr])).
  now rewrite badge_sub_twice.
Qed.

Lemma update_latest_wins_witness :
  update_readme_badge crlf 97
    (update_readme_badge crlf 90
       (Some ("x" ++ crlf ++ "[![Coverage](https://img.shields.io/badge/coverage-50%25-red.svg)]"
              ++ crlf ++ "y")))
  = update_readme_badge crlf 97
      (Some ("x" ++ crlf ++ "[![Coverage](https://img.shields.io/badge/coverage-50%25-red.svg)]"
             ++ crlf ++ "y")).
Proof. apply update_latest_wins; [right; reflexivity | lia]. Defined.

End CoverageFacts.

Module CheckCoverageFacts.
Import CoverageBadge CheckCoverage.
Local Open Scope Z_scope.

Definition succeeded (r : completed) : bool :=
  match r with Completed _ => true | CalledProcessError _ _ _ => false end.

(** [check_coverage.py] exits with [0] exactly when both the test run and
    the coverage report succeed; when the test run fails, the report is
    never run. *)
Theorem check_coverage_exit (machine : list string -> completed) :
  (exit_code machine = 0 <->
     succeeded (machine test_command) = true /\ succeeded (machine report_command) = true) /\
  (succeeded (machine test_command) = false ->
     snd (exec machine run_coverage) = [test_command]) /\
  (succeeded (machine test_command) = true ->
     snd (exec machine run_coverage) = [test_command; report_command]).
Proof.
  unfold exit_code, run_coverage; simpl.
  destruct (machine test_command) as [o1|c1 o1 e1]; simpl.
  - destruct (machine report_command) as [o2|c2 o2 e2]; simpl.
    + intuition congruence.
    + intuition congruence.
  - intuition congruence.
Qed.

End CheckCoverageFacts.
